(** * Reading a single Cloud-Optimized GeoTIFF: the notebook 0-single-cog.ipynb

    The notebook is a straight line of cells.  Every cell either changes the
    process environment ([os.environ]), calls into an external library
    (xarray, rasterio/GDAL, dask, requests, hvplot) or the shell, binds or
    deletes a name, or is a markdown cell.  The cells are embedded as
    computations of a state-and-exception monad over the kernel's state; the
    external libraries are an interface ([Library]) every result is proved
    for. *)

From Stdlib Require Import ZArith String Ascii List Lia.
From stdpp Require Import base gmap strings list.

Local Open Scope Z_scope.

(** ** Literals of the notebook *)

(** Lines 50-52: the two paths of the same COG. *)
Definition s3uri : string :=
  "s3://sentinel-s1-rtc-indigo/tiles/RTC/1/IW/10/T/ET/2020/S1B_20200106_10TET_ASC/Gamma0_VV.tif".
Definition url : string :=
  "https://sentinel-s1-rtc-indigo.s3.us-west-2.amazonaws.com/tiles/RTC/1/IW/10/T/ET/2020/S1B_20200106_10TET_ASC/Gamma0_VV.tif".

(** [chunks=dict(band=1, x=2745, y=2745)] *)
Definition chunks : gmap string Z :=
  <["band" := 1]> (<["x" := 2745]> (<["y" := 2745]> ∅)).

(** [dim=['x','y']] *)
Definition dim : list string := ["x"; "y"].

(** [os.path.basename]: what follows the last slash. *)
Fixpoint basename_from (acc s : string) : string :=
  match s with
  | EmptyString => acc
  | String c r =>
      if Ascii.eqb c "/" then basename_from EmptyString r
      else basename_from (acc +:+ String c EmptyString) r
  end.
Definition basename (p : string) : string := basename_from EmptyString p.
Arguments basename : simpl never.

(** The slice [s[n:]]. *)
Fixpoint slice_from (n : nat) (s : string) : string :=
  match n, s with
  | O, _ => s
  | S n', String _ r => slice_from n' r
  | S _, EmptyString => EmptyString
  end.

(** ** Calls that leave the notebook *)

(** One constructor per call the cells make, with the arguments the cell
    passes.  [Obj] is whatever the libraries hand back (a module, a
    DataArray, a response, a cluster). *)
Inductive Request (Obj : Type) : Type :=
| Import (module : string)                           (* import module *)
| VersionInfo                                        (* gdal.VersionInfo() *)
| HttpGet (address : string)                         (* requests.get(...) *)
| JsonStatus (resp : Obj)                            (* resp.json()['status'] *)
| Shell (command : string)                           (* !curl -O {url} *)
| OpenRasterio (path : string) (chunked : option (gmap string Z))
                                                     (* xr.open_rasterio(path[, chunks=...]) *)
| Nbytes (da : Obj)                                  (* da.nbytes *)
| Mean (da : Obj) (dims : list string)               (* da.mean(dim=[...]) *)
| LocalCluster (processes : bool) (local_directory : string)
| Client                                             (* Client() *)
| Visualize (ave : Obj) (optimize_graph : bool) (rankdir : string)
| Compute (ave : Obj)                                (* ave.compute() *)
| RioOpenRasterio (path : string) (masked : bool) (overview_level : Z)
| Squeeze (da : Obj) (name : string)                 (* .squeeze('band') *)
| HvplotImage (da : Obj) (cmap aspect : string) (clim : string * string) (title : string).

Arguments Import {Obj}.
Arguments VersionInfo {Obj}.
Arguments HttpGet {Obj}.
Arguments JsonStatus {Obj}.
Arguments Shell {Obj}.
Arguments OpenRasterio {Obj}.
Arguments Nbytes {Obj}.
Arguments Mean {Obj}.
Arguments LocalCluster {Obj}.
Arguments Client {Obj}.
Arguments Visualize {Obj}.
Arguments Compute {Obj}.
Arguments RioOpenRasterio {Obj}.
Arguments Squeeze {Obj}.
Arguments HvplotImage {Obj}.

(** The operation a request asks for, its arguments forgotten.  An open is
    deferred when it is given [chunks]. *)
Inductive Op : Type :=
| OpImport | OpVersionInfo
| OpHttpGet | OpJsonStatus | OpShell
| OpOpen (deferred : bool)
| OpNbytes | OpMean | OpLocalCluster | OpClient | OpVisualize | OpCompute
| OpSqueeze | OpPlot.

#[export] Instance Op_eq_dec : EqDecision Op.
Proof. solve_decision. Defined.

Definition op_of {Obj} (r : Request Obj) : Op :=
  match r with
  | Import _ => OpImport
  | VersionInfo => OpVersionInfo
  | HttpGet _ => OpHttpGet
  | JsonStatus _ => OpJsonStatus
  | Shell _ => OpShell
  | OpenRasterio _ (Some _) => OpOpen true
  | OpenRasterio _ None => OpOpen false
  | Nbytes _ => OpNbytes
  | Mean _ _ => OpMean
  | LocalCluster _ _ => OpLocalCluster
  | Client => OpClient
  | Visualize _ _ _ => OpVisualize
  | Compute _ => OpCompute
  | RioOpenRasterio _ _ _ => OpOpen false
  | Squeeze _ _ => OpSqueeze
  | HvplotImage _ _ _ _ _ => OpPlot
  end.

(** What came back: a Python exception, a value, or (for the shell, which
    raises nothing in IPython) an exit status. *)
Inductive Reply (Exn Obj : Type) : Type :=
| Raised (e : Exn)
| Returned (o : Obj)
| Exited (status : Z).

Arguments Raised {Exn Obj}.
Arguments Returned {Exn Obj}.
Arguments Exited {Exn Obj}.

(** The libraries, the network and the file system behind them.  A call sees
    the process environment (GDAL reads its configuration from it) and the
    state of the outside world, which it may change (downloads, caches).
    Only the notebook's own cells assign [os.environ]. *)
Class Library : Type := {
  Obj : Type;
  Exn : Type;
  World : Type;
  (** a library call: raises or returns *)
  respond : Request Obj -> gmap string string -> World -> (Exn + Obj) * World;
  (** a shell command: exits with a status *)
  system : string -> gmap string string -> World -> Z * World;
  (** a reference to an object is dropped ([del da], or [da] is rebound) *)
  unreference : Obj -> World -> World;
  (** the wall clock that [%%time] reads *)
  wall_clock : World -> Z
}.

(** ** The kernel *)

(** The markdown headings: the notebook's sections. *)
Inductive Heading : Type :=
| Title                        (* # Best-practices for Cloud-Optimized Geotiffs *)
| DownloadThenOpen             (* ## Download then open *)
| DefaultRemoteRead            (* ## Default remote read *)
| GdalEnvironmentVariables     (* ## GDAL environment variables *)
| Dask                         (* ## Dask *)
| VisualizeHeading.            (* ### Visualize *)

(** The four ways of reading the file that the notebook measures, one per
    section. *)
Inductive AccessMode : Type :=
| LocalDownload | RemoteDefault | RemoteTuned | RemoteChunked.

#[export] Instance Heading_eq_dec : EqDecision Heading.
Proof. solve_decision. Defined.

Definition heading_of (m : AccessMode) : Heading :=
  match m with
  | LocalDownload => DownloadThenOpen
  | RemoteDefault => DefaultRemoteRead
  | RemoteTuned => GdalEnvironmentVariables
  | RemoteChunked => Dask
  end.

Section Model.
Context {L : Library}.

(** What a cell can raise: the exception of a library call, or the
    [NameError] of a name that is not bound. *)
Inductive PyExn : Type :=
| LibraryError (e : Exn)
| NameError (name : string).

(** A call as it was made: under which heading, with which environment, and
    the outside world when it was made and when it came back. *)
Record Event : Type := {
  ev_heading : Heading;
  ev_environ : gmap string string;
  ev_request : Request Obj;
  ev_reply : Reply Exn Obj;
  ev_before : World;
  ev_after : World
}.

(** One output of [%%time]: the wall time of a cell, and the calls the cell
    made while the clock ran. *)
Record Timing : Type := {
  t_heading : Heading;
  t_calls : list Event;
  t_wall : Z
}.

(** The kernel.  [names] holds the names the cells bind to objects of the
    libraries ([resp], [da], [cluster], [client], [ave]); the modules and
    the strings of lines 24-52 are taken as bound. *)
Record Kernel : Type := {
  environ : gmap string string;      (* os.environ *)
  names : gmap string Obj;           (* the user namespace *)
  world : World;
  heading : Heading;                 (* the last markdown heading passed *)
  trace : list Event;                (* every call so far, oldest first *)
  timings : list Timing;             (* every %%time output so far, oldest first *)
  tracebacks : list PyExn            (* every traceback %%time has shown *)
}.

Definition set_environ (e : gmap string string) (k : Kernel) : Kernel :=
  {| environ := e; names := names k; world := world k; heading := heading k;
     trace := trace k; timings := timings k; tracebacks := tracebacks k |}.
Definition set_names (ns : gmap string Obj) (k : Kernel) : Kernel :=
  {| environ := environ k; names := ns; world := world k; heading := heading k;
     trace := trace k; timings := timings k; tracebacks := tracebacks k |}.
Definition set_world (w : World) (k : Kernel) : Kernel :=
  {| environ := environ k; names := names k; world := w; heading := heading k;
     trace := trace k; timings := timings k; tracebacks := tracebacks k |}.
Definition set_heading (h : Heading) (k : Kernel) : Kernel :=
  {| environ := environ k; names := names k; world := world k; heading := h;
     trace := trace k; timings := timings k; tracebacks := tracebacks k |}.
Definition log_event (ev : Event) (k : Kernel) : Kernel :=
  {| environ := environ k; names := names k; world := world k;
     heading := heading k; trace := trace k ++ [ev]; timings := timings k;
     tracebacks := tracebacks k |}.
Definition log_timing (t : Timing) (k : Kernel) : Kernel :=
  {| environ := environ k; names := names k; world := world k;
     heading := heading k; trace := trace k; timings := timings k ++ [t];
     tracebacks := tracebacks k |}.
Definition log_traceback (e : PyExn) (k : Kernel) : Kernel :=
  {| environ := environ k; names := names k; world := world k;
     heading := heading k; trace := trace k; timings := timings k;
     tracebacks := tracebacks k ++ [e] |}.

(** The event of a request made now, that comes back in the world [after]. *)
Definition stamp (k : Kernel) (r : Request Obj) (a : Reply Exn Obj)
    (after : World) : Event :=
  {| ev_heading := heading k; ev_environ := environ k;
     ev_request := r; ev_reply := a;
     ev_before := world k; ev_after := after |}.

(** A cell returns or raises; the kernel's state survives either way. *)
Inductive Outcome (A : Type) : Type :=
| Return (a : A)
| Raise (e : PyExn).
Arguments Return {A}.
Arguments Raise {A}.

Definition M (A : Type) : Type := Kernel -> Outcome A * Kernel.

Definition ret {A} (a : A) : M A := fun k => (Return a, k).
Definition bind {A B} (c : M A) (f : A -> M B) : M B := fun k =>
  match c k with
  | (Return a, k') => f a k'
  | (Raise e, k') => (Raise e, k')
  end.

#[local] Notation "x <~ c ; d" := (bind c (fun x => d))
  (at level 100, c at next level, d at level 200, right associativity).
#[local] Notation "c ;;; d" := (bind c (fun _ => d))
  (at level 100, d at level 200, right associativity).

(** A library call. *)
Definition call (r : Request Obj) : M Obj := fun k =>
  match respond r (environ k) (world k) with
  | (inl e, w) =>
      (Raise (LibraryError e),
       set_world w (log_event (stamp k r (Raised e) w) k))
  | (inr o, w) =>
      (Return o, set_world w (log_event (stamp k r (Returned o) w) k))
  end.

(** [!command]: the exit status is not looked at. *)
Definition shell (command : string) : M unit := fun k =>
  match system command (environ k) (world k) with
  | (status, w) =>
      (Return tt,
       set_world w (log_event (stamp k (Shell command) (Exited status) w) k))
  end.

(** [os.environ[name] = value] *)
Definition setenv (name value : string) : M unit := fun k =>
  (Return tt, set_environ (<[name := value]> (environ k)) k).

(** The outside world when the reference a name held, if it held one, is
    dropped. *)
Definition release (old : option Obj) (w : World) : World :=
  match old with
  | Some o => unreference o w
  | None => w
  end.

(** Reading a name. *)
Definition lookup_name (name : string) : M Obj := fun k =>
  match names k !! name with
  | Some o => (Return o, k)
  | None => (Raise (NameError name), k)
  end.

(** [name = o]: the name is bound to [o]; what it was bound to loses a
    reference. *)
Definition assign (name : string) (o : Obj) : M unit := fun k =>
  (Return tt,
   set_names (<[name := o]> (names k))
     (set_world (release (names k !! name) (world k)) k)).

(** [del name] *)
Definition del (name : string) : M unit := fun k =>
  match names k !! name with
  | Some o =>
      (Return tt,
       set_names (delete name (names k))
         (set_world (unreference o (world k)) k))
  | None => (Raise (NameError name), k)
  end.

(** An object no name is bound to, when the statement that made it ends. *)
Definition drop_reference (o : Obj) : M unit := fun k =>
  (Return tt, set_world (unreference o (world k)) k).

(** A markdown cell with a heading. *)
Definition markdown (h : Heading) : M unit := fun k =>
  (Return tt, set_heading h k).

(** [%%time], as the IPython of the notebook's kernel (Python 3.8.6, hence
    IPython 8.12 at most) runs it: when the cell's body returns, its wall
    time is printed; when it raises, the magic shows the traceback and
    returns, so that the cell ends normally, no time is printed, and the
    cells after it run. *)
Definition timed {A} (body : M A) : M unit := fun k =>
  match body k with
  | (Return _, k') =>
      (Return tt,
       log_timing {| t_heading := heading k';
                     t_calls := drop (length (trace k)) (trace k');
                     t_wall := wall_clock (world k') - wall_clock (world k) |} k')
  | (Raise e, k') => (Return tt, log_traceback e k')
  end.

(** ** The cells, in the notebook's order

    What a cell displays is left out.  Line numbers are those of the .ipynb
    file. *)

(** Lines 24-30. *)
Definition cell_imports : M unit :=
  call (Import "os");;;
  call (Import "xarray");;;
  call (Import "rasterio");;;
  call (Import "rioxarray");;;
  call (Import "hvplot.xarray");;;
  call (Import "gdal");;;
  call (Import "requests");;;
  ret tt.

(** Lines 39-41: the two [__version__] are attributes, [gdal.VersionInfo()]
    is a call. *)
Definition cell_versions : M unit :=
  call VersionInfo;;; ret tt.

(** Lines 65-66: ask the validation service about [url]. *)
Definition cell_validate : M unit :=
  r <~ call (HttpGet ("http://cog-validate.radiant.earth/api/validate?url=" +:+ url));
  assign "resp" r;;;
  resp <~ lookup_name "resp";
  call (JsonStatus resp);;;
  ret tt.

(** *** Download then open *)

(** Lines 84-88. *)
Definition cell_download_open : M unit :=
  timed (shell ("curl -O " +:+ url);;;
         let localFile := basename url in
         o <~ call (OpenRasterio localFile None);
         assign "da" o).

(** Lines 97-98. *)
Definition cell_nbytes : M unit :=
  da <~ lookup_name "da";
  call (Nbytes da);;;
  ret tt.

(** Lines 107-109, 156-158 and 255-257. *)
Definition cell_mean : M unit :=
  timed (da <~ lookup_name "da";
         call (Mean da dim)).

(** Lines 118, 186 and 266. *)
Definition cell_del : M unit := del "da".

(** *** Default remote read *)

(** Lines 145-147, and again lines 244-246 once the environment is assigned. *)
Definition cell_open : M unit :=
  timed (o <~ call (OpenRasterio url None);
         assign "da" o).

(** Lines 174-177, the cached re-run. *)
Definition cell_open_mean_again : M unit :=
  timed (o <~ call (OpenRasterio url None);
         assign "da" o;;;
         da <~ lookup_name "da";
         call (Mean da dim)).

(** *** GDAL environment variables *)

(** Lines 230-234. *)
Definition cell_gdal_env : M unit :=
  setenv "GDAL_DISABLE_READDIR_ON_OPEN" "EMPTY_DIR";;;
  setenv "AWS_NO_SIGN_REQUEST" "YES";;;
  setenv "GDAL_MAX_RAW_BLOCK_CACHE_SIZE" "200000000";;;
  setenv "GDAL_SWATH_SIZE" "200000000";;;
  setenv "VSI_CURL_CACHE_SIZE" "200000000".

(** *** Dask *)

(** Lines 302-305. *)
Definition cell_cluster : M unit :=
  call (Import "dask.distributed");;;
  c <~ call (LocalCluster false "/tmp");
  assign "cluster" c;;;
  c' <~ call Client;
  assign "client" c';;;
  lookup_name "client";;;
  ret tt.

(** Lines 314-317. *)
Definition cell_open_chunked : M unit :=
  timed (o <~ call (OpenRasterio url (Some chunks));
         assign "da" o).

(** Lines 326-329. *)
Definition cell_mean_ave : M unit :=
  timed (da <~ lookup_name "da";
         o <~ call (Mean da dim);
         assign "ave" o;;;
         lookup_name "ave").

(** Line 339. *)
Definition cell_visualize_graph : M unit :=
  ave <~ lookup_name "ave";
  call (Visualize ave true "LR");;;
  ret tt.

(** Lines 355-357. *)
Definition cell_compute : M unit :=
  timed (ave <~ lookup_name "ave";
         call (Compute ave)).

(** *** Visualize *)

(** Lines 391-393; the array [open_rasterio] returns is bound to no name and
    goes when [squeeze] has returned. *)
Definition cell_hvplot : M unit :=
  timed (full <~ call (RioOpenRasterio url true 3);
         o <~ call (Squeeze full "band");
         drop_reference full;;;
         assign "da" o;;;
         da <~ lookup_name "da";
         call (HvplotImage da "gray" "equal" ("0", "0.4") (slice_from 64 url))).

(** ** The sections *)

(** What a mode sets in the environment before it opens the file. *)
Definition configure (m : AccessMode) : M unit :=
  match m with
  | RemoteTuned => cell_gdal_env
  | LocalDownload | RemoteDefault | RemoteChunked => ret tt
  end.

(** The open and the reduction of a mode. *)
Definition measure (m : AccessMode) : M unit :=
  match m with
  | LocalDownload =>
      cell_download_open;;;
      cell_nbytes;;;
      cell_mean;;;
      cell_del
  | RemoteDefault =>
      cell_open;;;
      cell_mean;;;
      cell_open_mean_again;;;
      cell_del
  | RemoteTuned =>
      cell_open;;;
      cell_mean;;;
      cell_del
  | RemoteChunked =>
      cell_cluster;;;
      cell_open_chunked;;;
      cell_mean_ave;;;
      cell_visualize_graph;;;
      cell_compute
  end.

(** A section: its heading, its settings, its cells. *)
Definition run (m : AccessMode) : M unit :=
  markdown (heading_of m);;;
  configure m;;;
  measure m.

Definition visualize : M unit :=
  markdown VisualizeHeading;;;
  cell_hvplot.

(** The cells above the first section. *)
Definition title_section : M unit :=
  markdown Title;;;
  cell_imports;;;
  cell_versions;;;
  cell_validate.

(** Run All: a cell that raises stops it. *)
Definition notebook : M unit :=
  title_section;;;
  run LocalDownload;;;
  run RemoteDefault;;;
  run RemoteTuned;;;
  run RemoteChunked;;;
  visualize.

(** The notebook around the cell that assigns the environment: what comes
    before that cell, and what comes after it. *)
Definition before_gdal_env : M unit :=
  title_section;;;
  run LocalDownload;;;
  run RemoteDefault;;;
  markdown GdalEnvironmentVariables.

Definition after_gdal_env : M unit :=
  measure RemoteTuned;;;
  run RemoteChunked;;;
  visualize.

(** The notebook around a section: the cells Run All runs before it reaches
    the section, and those it runs after the section. *)
Definition reaches (m : AccessMode) : M unit :=
  match m with
  | LocalDownload => title_section
  | RemoteDefault => title_section;;; run LocalDownload
  | RemoteTuned => title_section;;; run LocalDownload;;; run RemoteDefault
  | RemoteChunked =>
      title_section;;; run LocalDownload;;; run RemoteDefault;;;
      run RemoteTuned
  end.

Definition follows (m : AccessMode) : M unit :=
  match m with
  | LocalDownload =>
      run RemoteDefault;;; run RemoteTuned;;; run RemoteChunked;;; visualize
  | RemoteDefault => run RemoteTuned;;; run RemoteChunked;;; visualize
  | RemoteTuned => run RemoteChunked;;; visualize
  | RemoteChunked => visualize
  end.

(** Sections run one after the other, in any order and whatever their
    outcomes: the kernel they leave. *)
Definition after_runs (ms : list AccessMode) (k : Kernel) : Kernel :=
  fold_left (fun k' m => (run m k').2) ms k.

End Model.

Arguments Return {L A}.
Arguments Raise {L A}.

(** A kernel that has run nothing yet. *)
Definition boot {L : Library} (e : gmap string string) (w : World) : Kernel :=
  {| environ := e; names := ∅; world := w; heading := Title; trace := [];
     timings := []; tracebacks := [] |}.

(** ** A library to run the notebook against

    Objects are numbered by the clock; every call takes one tick; the
    operations in [fails] raise. *)
Definition scripted (fails : Op -> bool) : Library :=
  {| Obj := Z; Exn := string; World := Z;
     respond := fun r _ w =>
       (if fails (op_of r) then inl "RasterioIOError"%string else inr w, w + 1);
     system := fun _ _ w => (0, w + 1);
     unreference := fun _ w => w;
     wall_clock := fun w => w |}.

Definition online : Library := scripted (fun _ => false).

(** The kernel at start: an empty environment, the clock at zero. *)
Definition fresh_kernel : @Kernel online := @boot online ∅ 0.

(** ** Settings *)

(** The names and values the notebook assigns in [os.environ], in order. *)
Definition gdal_options : list (string * string) :=
  [ ("GDAL_DISABLE_READDIR_ON_OPEN", "EMPTY_DIR");
    ("AWS_NO_SIGN_REQUEST", "YES");
    ("GDAL_MAX_RAW_BLOCK_CACHE_SIZE", "200000000");
    ("GDAL_SWATH_SIZE", "200000000");
    ("VSI_CURL_CACHE_SIZE", "200000000") ]%string.

(** The assignments made in the section of a mode. *)
Definition options_of (m : AccessMode) : list (string * string) :=
  match m with
  | RemoteTuned => gdal_options
  | LocalDownload | RemoteDefault | RemoteChunked => []
  end.

(** Assigning a list of options, first to last. *)
Definition apply_options (opts : list (string * string))
    (e : gmap string string) : gmap string string :=
  fold_left (fun acc nv => <[nv.1 := nv.2]> acc) opts e.
Arguments apply_options : simpl never.

(** The value the last assignment to [name] gives it, if any. *)
Fixpoint assigned (opts : list (string * string)) (name : string) : option string :=
  match opts with
  | [] => None
  | (n, v) :: rest =>
      match assigned rest name with
      | Some v' => Some v'
      | None => if String.eqb n name then Some v else None
      end
  end.

(** The sections that come after the environment has been assigned. *)
Definition tuned_in_force (h : Heading) : bool :=
  match h with
  | GdalEnvironmentVariables | Dask | VisualizeHeading => true
  | Title | DownloadThenOpen | DefaultRemoteRead => false
  end.

(** The environment a section's calls run under, when the notebook starts
    from [e0]. *)
Definition environ_under (h : Heading) (e0 : gmap string string) : gmap string string :=
  if tuned_in_force h then apply_options gdal_options e0 else e0.

(** A setting read as a number of bytes: decimal digits only. *)
Definition digit (c : ascii) : option Z :=
  let n := Z.of_nat (nat_of_ascii c) in
  if (48 <=? n) && (n <=? 57) then Some (n - 48) else None.

Fixpoint decimal_from (acc : Z) (s : string) : option Z :=
  match s with
  | EmptyString => Some acc
  | String c r =>
      match digit c with
      | Some d => decimal_from (10 * acc + d) r
      | None => None
      end
  end.

Definition decimal (s : string) : option Z :=
  match s with
  | EmptyString => None
  | _ => decimal_from 0 s
  end.

(** The test file (first cell): a single band of 5490x5490 pixels, 120 MB
    uncompressed, that is four bytes a pixel.  [da.nbytes / 1e6] is printed
    as MB. *)
Definition raster_bands : Z := 1.
Definition raster_width : Z := 5490.
Definition raster_height : Z := 5490.
Definition raster_itemsize : Z := 4.
Definition raster_nbytes : Z :=
  raster_bands * raster_width * raster_height * raster_itemsize.
Definition MB : Z := 1000000.

(** ** Reading the logs *)

(** Whether a list is another with some of its elements left out. *)
Fixpoint sublistb {A} `{EqDecision A} (l1 l2 : list A) : bool :=
  match l2 with
  | [] => match l1 with [] => true | _ :: _ => false end
  | y :: rest2 =>
      match l1 with
      | [] => true
      | x :: rest1 =>
          (bool_decide (x = y) && sublistb rest1 rest2) || sublistb l1 rest2
      end
  end.


Section Logs.
Context {L : Library}.

(** The operations a timing covers. *)
Definition covers (t : Timing) : list Op :=
  map (fun ev => op_of (ev_request ev)) (t_calls t).


(** What a computation adds to the logs. *)
Definition sampled {A} (c : M A) (k : Kernel) : list Timing :=
  drop (length (timings k)) (timings (c k).2).
Definition issued {A} (c : M A) (k : Kernel) : list Event :=
  drop (length (trace k)) (trace (c k).2).

Definition raised (ev : Event) : option Exn :=
  match ev_reply ev with
  | Raised e => Some e
  | Returned _ | Exited _ => None
  end.



End Logs.


(** ** Relations between the kernel before and after *)

Section Relations.
Context {L : Library}.

(** A frame is a relation between the kernel before and after that the
    steps common to all cells keep: a change of the outside world or of the
    names, a call logged with the stamp of the moment, a timing or a
    traceback logged. *)
Class Frame (R : relation Kernel) : Prop := {
  frame_preorder :: PreOrder R;
  frame_world : forall k w, R k (set_world w k);
  frame_names : forall k ns, R k (set_names ns k);
  frame_event : forall k r a w, R k (log_event (stamp k r a w) k);
  frame_timing : forall k t, R k (log_timing t k);
  frame_traceback : forall k e, R k (log_traceback e k)
}.

Definition keeps {A} (R : relation Kernel) (c : M A) : Prop :=
  forall k, R k (c k).2.

(** The timing log only grows at its end. *)
Definition log_grows (k k' : Kernel) : Prop :=
  timings k `prefix_of` timings k'.

(** The environment stays, and every call made meanwhile saw it. *)
Definition same_environ (k k' : Kernel) : Prop :=
  environ k' = environ k /\
  exists evs, trace k' = trace k ++ evs /\
    Forall (fun ev => ev_environ ev = environ k) evs.

(** Environment and heading stay, and every call made meanwhile is stamped
    with both. *)
Definition same_stamp (k k' : Kernel) : Prop :=
  environ k' = environ k /\ heading k' = heading k /\
  exists evs, trace k' = trace k ++ evs /\
    Forall (fun ev => ev_environ ev = environ k /\ ev_heading ev = heading k) evs.

(** A call made under the environment of its section, for a notebook that
    started from [e0]. *)
Definition governed (e0 : gmap string string) (ev : Event) : Prop :=
  ev_environ ev = environ_under (ev_heading ev) e0.

(** A computation that, started under [before], makes governed calls only
    and, when it returns, leaves the environment [after]. *)
Definition leads {A} (e0 before after : gmap string string) (c : M A) : Prop :=
  forall k, environ k = before ->
    (forall a, (c k).1 = Return a -> environ (c k).2 = after) /\
    exists evs, trace (c k).2 = trace k ++ evs /\ Forall (governed e0) evs.




(** A clock that moves forward with every call, and never backward. *)
Definition ticking : Prop :=
  (forall r e w, wall_clock w < wall_clock (respond r e w).2) /\
  (forall c e w, wall_clock w < wall_clock (system c e w).2) /\
  (forall o w, wall_clock w <= wall_clock (unreference o w)).

End Relations.

Definition is_open (o : Op) : bool :=
  match o with OpOpen _ => true | _ => false end.
Definition is_reduce (o : Op) : bool :=
  match o with OpMean | OpCompute => true | _ => false end.

(** A sample is an open sample when its cell opens and reduces nothing, and
    a compute sample when its cell reduces and opens nothing. *)
Definition open_sample (ops : list Op) : bool :=
  existsb is_open ops && negb (existsb is_reduce ops).
Definition compute_sample (ops : list Op) : bool :=
  existsb is_reduce ops && negb (existsb is_open ops).

(** No compute sample stands in the log before an open sample. *)
Fixpoint open_first (opened : bool) (log : list (list Op)) : bool :=
  match log with
  | [] => true
  | s :: rest =>
      (if compute_sample s then opened else true)
      && open_first (opened || open_sample s) rest
  end.

(** The timed cells of each section, by the operations they cover. *)
Definition samples_of (m : AccessMode) : list (list Op) :=
  match m with
  | LocalDownload => [[OpShell; OpOpen false]; [OpMean]]
  | RemoteDefault => [[OpOpen false]; [OpMean]; [OpOpen false; OpMean]]
  | RemoteTuned => [[OpOpen false]; [OpMean]]
  | RemoteChunked => [[OpOpen true]; [OpMean]; [OpCompute]]
  end.

(** The calls of each section, by operation. *)
Definition section_ops (m : AccessMode) : list Op :=
  match m with
  | LocalDownload => [OpShell; OpOpen false; OpNbytes; OpMean]
  | RemoteDefault => [OpOpen false; OpMean; OpOpen false; OpMean]
  | RemoteTuned => [OpOpen false; OpMean]
  | RemoteChunked =>
      [OpImport; OpLocalCluster; OpClient; OpOpen true; OpMean; OpVisualize;
       OpCompute]
  end.

(** ** Objects, references and wall time *)


Section Objects.
Context {L : Library}.


(** The arrays the opens of a list of calls have returned. *)
Definition opened (evs : list Event) : list Obj :=
  omap (fun ev =>
          match ev_request ev, ev_reply ev with
          | OpenRasterio _ _, Returned o => Some o
          | _, _ => None
          end) evs.

(** The requests of a list of calls, each with its reply. *)
Definition exchanges_of (evs : list Event) : list (Request Obj * Reply Exn Obj) :=
  map (fun ev => (ev_request ev, ev_reply ev)) evs.

(** The wall time of a list of samples. *)
Definition total_wall (ts : list Timing) : Z :=
  foldr (fun t acc => t_wall t + acc) 0 ts.

(** A clock that never goes back. *)
Definition monotone_clock : Prop :=
  (forall r e w, wall_clock w <= wall_clock (respond r e w).2) /\
  (forall c e w, wall_clock w <= wall_clock (system c e w).2) /\
  (forall o w, wall_clock w <= wall_clock (unreference o w)).

(** A sample by its section and the operations it covers. *)
Definition label (t : Timing) : Heading * list Op := (t_heading t, covers t).

(** A computation whose calls are some of [ops] and whose samples are some
    of [samples], in that order, and all of them, with the computation
    returning, when no call raises. *)
Definition shaped {A} (c : M A) (ops : list Op)
    (samples : list (Heading * list Op)) : Prop :=
  forall k, exists evs ts,
    trace (c k).2 = trace k ++ evs /\
    timings (c k).2 = timings k ++ ts /\
    map (fun ev => op_of (ev_request ev)) evs `sublist_of` ops /\
    map label ts `sublist_of` samples /\
    (Forall (fun ev => raised ev = None) evs ->
       (exists a, (c k).1 = Return a) /\
       map (fun ev => op_of (ev_request ev)) evs = ops /\
       map label ts = samples).


(** *** Deferred arrays

    What dask promises of the calls the Dask section makes, for a library
    that counts the pixels it has read ([pixels_read]) and tells a deferred
    array from a materialized one ([deferred]). *)




End Objects.

(** A library that behaves as [L] does and keeps, beside its world, the
    list of the objects whose reference was dropped, oldest first. *)
Definition audited (L : Library) : Library :=
  {| Obj := @Obj L; Exn := @Exn L; World := (@World L * list (@Obj L))%type;
     respond := fun r e w =>
       let (a, w') := @respond L r e w.1 in (a, (w', w.2));
     system := fun c e w =>
       let (s, w') := @system L c e w.1 in (s, (w', w.2));
     unreference := fun o w => (@unreference L o w.1, w.2 ++ [o]);
     wall_clock := fun w => @wall_clock L w.1 |}.

Definition dropped {L : Library} (k : @Kernel (audited L)) : list (@Obj L) :=
  (world k).2.

(** The pixels of one band of the test file. *)
Definition raster_pixels : Z := raster_bands * raster_width * raster_height.

(** A library after dask's contract.  An object is a flag, whether it is
    deferred, and a number; the world is the clock and the number of pixels
    read so far.  An open with [chunks] hands back a deferred array; the
    mean of a deferred array is deferred and that of a materialized one
    reads the raster; [compute] of a deferred array reads the raster.
    Every call returns and takes one tick. *)
Definition dask_like : Library :=
  {| Obj := (bool * Z)%type; Exn := string; World := (Z * Z)%type;
     respond := fun r _ w =>
       let '(lazy, pixels) :=
         match r with
         | OpenRasterio _ (Some _) => (true, 0)
         | Mean da _ => (da.1, if da.1 then 0 else raster_pixels)
         | Compute ave => (false, if ave.1 then raster_pixels else 0)
         | _ => (false, 0)
         end in
       (inr (lazy, w.1), (w.1 + 1, w.2 + pixels));
     system := fun _ _ w => (0, (w.1 + 1, w.2));
     unreference := fun _ w => w;
     wall_clock := fun w => w.1 |}.

Definition dask_pixels_read (w : @World dask_like) : Z := w.2.

Definition fresh_dask_kernel : @Kernel dask_like := @boot dask_like ∅ (0, 0).

(** The calls of Run All and its timed cells, by operation. *)
Definition notebook_ops : list Op :=
  [ OpImport; OpImport; OpImport; OpImport; OpImport; OpImport; OpImport;
    OpVersionInfo;
    OpHttpGet; OpJsonStatus;
    OpShell; OpOpen false; OpNbytes; OpMean;
    OpOpen false; OpMean; OpOpen false; OpMean;
    OpOpen false; OpMean;
    OpImport; OpLocalCluster; OpClient; OpOpen true; OpMean; OpVisualize;
    OpCompute;
    OpOpen false; OpSqueeze; OpPlot ].

Definition notebook_samples : list (Heading * list Op) :=
  [ (DownloadThenOpen, [OpShell; OpOpen false]);
    (DownloadThenOpen, [OpMean]);
    (DefaultRemoteRead, [OpOpen false]);
    (DefaultRemoteRead, [OpMean]);
    (DefaultRemoteRead, [OpOpen false; OpMean]);
    (GdalEnvironmentVariables, [OpOpen false]);
    (GdalEnvironmentVariables, [OpMean]);
    (Dask, [OpOpen true]);
    (Dask, [OpMean]);
    (Dask, [OpCompute]);
    (VisualizeHeading, [OpOpen false; OpSqueeze; OpPlot]) ].

(** A kernel started with one of the five names already set, as a shell
    would have exported it. *)
Definition preset_kernel : @Kernel online :=
  @boot online {["GDAL_SWATH_SIZE" := "10000000"]} 0.


(** The kernel in which Run All, started fresh, reaches the Dask section. *)
Definition dask_start : @Kernel online :=
  (@reaches online RemoteChunked fresh_kernel).2.

(** Libraries whose opens, or whose means, raise. *)
Definition opens_fail : Library := scripted is_open.

(** * The notebook on the scripted libraries *)

Example basename_url : basename url = "Gamma0_VV.tif".
Proof. reflexivity. Qed.

Example title_of_plot :
  slice_from 64 url = "RTC/1/IW/10/T/ET/2020/S1B_20200106_10TET_ASC/Gamma0_VV.tif".
Proof. reflexivity. Qed.

(** Run All against a library that never raises: the timed cells in order,
    with the section they stand in and their wall time in ticks. *)
Example notebook_online_timings :
  (notebook fresh_kernel).1 = Return tt /\
  map (fun t => (t_heading t, covers t, t_wall t)) (timings (notebook fresh_kernel).2) =
  [ (DownloadThenOpen, [OpShell; OpOpen false], 2);
    (DownloadThenOpen, [OpMean], 1);
    (DefaultRemoteRead, [OpOpen false], 1);
    (DefaultRemoteRead, [OpMean], 1);
    (DefaultRemoteRead, [OpOpen false; OpMean], 2);
    (GdalEnvironmentVariables, [OpOpen false], 1);
    (GdalEnvironmentVariables, [OpMean], 1);
    (Dask, [OpOpen true], 1);
    (Dask, [OpMean], 1);
    (Dask, [OpCompute], 1);
    (VisualizeHeading, [OpOpen false; OpSqueeze; OpPlot], 3) ] /\
  map (fun ev => op_of (ev_request ev)) (trace (notebook fresh_kernel).2) =
    notebook_ops.
Proof. by vm_compute. Qed.

(** The opens of that run, each with its section and with what it sees of
    the first setting. *)
Example notebook_online_opens :
  omap (fun ev =>
          if is_open (op_of (ev_request ev))
          then Some (ev_heading ev,
                     ev_environ ev !! "GDAL_DISABLE_READDIR_ON_OPEN")
          else None)
       (trace (notebook fresh_kernel).2) =
  [ (DownloadThenOpen, None);
    (DefaultRemoteRead, None);
    (DefaultRemoteRead, None);
    (GdalEnvironmentVariables, Some "EMPTY_DIR");
    (Dask, Some "EMPTY_DIR");
    (VisualizeHeading, Some "EMPTY_DIR") ].
Proof. by vm_compute. Qed.

(** When every open raises, [%%time] shows the traceback of the download
    cell and the cell ends; the next cell finds [da] unbound, and its
    [NameError] is what stops Run All. *)
Example notebook_opens_fail :
  let r := @notebook opens_fail (@boot opens_fail ∅ 0) in
  r.1 = Raise (@NameError opens_fail "da") /\
  tracebacks r.2 = [@LibraryError opens_fail "RasterioIOError"] /\
  timings r.2 = [] /\
  last (map (fun ev => op_of (ev_request ev)) (trace r.2)) = Some (OpOpen false).
Proof. by vm_compute. Qed.

(** When [compute] raises, its traceback is shown, no sample of compute is
    recorded, and Run All goes on to the Visualize section and returns. *)
Example notebook_compute_raises :
  let offline := scripted (fun o => bool_decide (o = OpCompute)) in
  let r := @notebook offline (@boot offline ∅ 0) in
  r.1 = Return tt /\
  map label (timings r.2) =
    take 9 notebook_samples ++ drop 10 notebook_samples /\
  tracebacks r.2 = [@LibraryError offline "RasterioIOError"].
Proof. by vm_compute. Qed.

(** With a [da] left bound by an earlier run, a failed open goes unnoticed
    by the next cell, which takes the mean of the old array. *)
Example stale_da_is_used :
  let k := @set_names opens_fail {["da" := 7]} (@boot opens_fail ∅ 10) in
  (run RemoteTuned k).1 = Return tt /\
  exchanges_of (issued (run RemoteTuned) k) =
    [ (@OpenRasterio Z url None, @Raised string Z "RasterioIOError");
      (Mean 7 dim, Returned 11) ].
Proof. by vm_compute. Qed.

(** Against the library after dask's contract: the pixels read during each
    timed cell of the Dask section. *)
Example dask_like_pixels :
  map (fun t => (covers t,
                 map (fun ev => dask_pixels_read (ev_after ev) -
                                dask_pixels_read (ev_before ev)) (t_calls t)))
      (sampled (run RemoteChunked) fresh_dask_kernel) =
  [ ([OpOpen true], [0]); ([OpMean], [0]); ([OpCompute], [30140100]) ].
Proof. by vm_compute. Qed.

(** * Frames *)

Section Frames.
Context {L : Library}.

Lemma keeps_ret {A} R `{!Frame R} (a : A) : keeps R (ret a).
Proof. intros k. reflexivity. Qed.

Lemma keeps_bind {A B} R `{!Frame R} (c : M A) (f : A -> M B) :
  keeps R c -> (forall a, keeps R (f a)) -> keeps R (bind c f).
Proof.
  intros Hc Hf k. unfold bind.
  specialize (Hc k). destruct (c k) as [[a|e] k1]; simpl in *.
  - transitivity k1; [assumption | apply Hf].
  - assumption.
Qed.

Lemma keeps_call R `{!Frame R} (r : Request Obj) : keeps R (call r).
Proof.
  intros k. unfold call.
  destruct (respond r (environ k) (world k)) as [[e|o] w]; simpl;
    (etransitivity; [apply frame_event | apply frame_world]).
Qed.

Lemma keeps_shell R `{!Frame R} (command : string) : keeps R (shell command).
Proof.
  intros k. unfold shell.
  destruct (system command (environ k) (world k)) as [status w]; simpl.
  etransitivity; [apply frame_event | apply frame_world].
Qed.

Lemma keeps_lookup_name R `{!Frame R} (name : string) : keeps R (lookup_name name).
Proof. intros k. unfold lookup_name. destruct (names k !! name); reflexivity. Qed.

Lemma keeps_assign R `{!Frame R} (name : string) (o : Obj) : keeps R (assign name o).
Proof.
  intros k. unfold assign. simpl.
  etransitivity; [apply frame_world | apply frame_names].
Qed.

Lemma keeps_del R `{!Frame R} (name : string) : keeps R (del name).
Proof.
  intros k. unfold del. destruct (names k !! name); simpl; [| reflexivity].
  etransitivity; [apply frame_world | apply frame_names].
Qed.

Lemma keeps_drop_reference R `{!Frame R} (o : Obj) : keeps R (drop_reference o).
Proof. intros k. apply frame_world. Qed.

Lemma keeps_timed {A} R `{!Frame R} (body : M A) :
  keeps R body -> keeps R (timed body).
Proof.
  intros Hb k. unfold timed. specialize (Hb k).
  destruct (body k) as [[a|e] k1]; simpl in *.
  - etransitivity; [eassumption | apply frame_timing].
  - etransitivity; [eassumption | apply frame_traceback].
Qed.

#[export] Instance log_grows_frame : Frame log_grows.
Proof.
  split.
  - split.
    + intros k. unfold log_grows. reflexivity.
    + intros k1 k2 k3. unfold log_grows. intros H1 H2. by etransitivity.
  - intros k w. unfold log_grows. reflexivity.
  - intros k ns. unfold log_grows. reflexivity.
  - intros k r a w. unfold log_grows. reflexivity.
  - intros k t. unfold log_grows. simpl. by apply prefix_app_r.
  - intros k e. unfold log_grows. reflexivity.
Qed.

Lemma same_environ_quiet k k' :
  environ k' = environ k -> trace k' = trace k -> same_environ k k'.
Proof. intros He Ht. split; [done |]. exists []. by rewrite app_nil_r. Qed.

Lemma same_environ_trans k1 k2 k3 :
  same_environ k1 k2 -> same_environ k2 k3 -> same_environ k1 k3.
Proof.
  intros [He1 (evs1 & Ht1 & Hs1)] [He2 (evs2 & Ht2 & Hs2)].
  split; [congruence |].
  exists (evs1 ++ evs2). split.
  - rewrite Ht2, Ht1. by rewrite app_assoc.
  - apply Forall_app. split; [done |]. by rewrite <- He1.
Qed.

#[export] Instance same_environ_frame : Frame same_environ.
Proof.
  split.
  - split; [intros k; by apply same_environ_quiet | exact same_environ_trans].
  - intros k w. by apply same_environ_quiet.
  - intros k ns. by apply same_environ_quiet.
  - intros k r a w. split; [done |]. exists [stamp k r a w]. split; [done |].
    by constructor.
  - intros k t. by apply same_environ_quiet.
  - intros k e. by apply same_environ_quiet.
Qed.

Lemma same_stamp_quiet k k' :
  environ k' = environ k -> heading k' = heading k -> trace k' = trace k ->
  same_stamp k k'.
Proof.
  intros He Hh Ht. split; [done |]. split; [done |].
  exists []. by rewrite app_nil_r.
Qed.

Lemma same_stamp_trans k1 k2 k3 :
  same_stamp k1 k2 -> same_stamp k2 k3 -> same_stamp k1 k3.
Proof.
  intros (He1 & Hh1 & evs1 & Ht1 & Hs1) (He2 & Hh2 & evs2 & Ht2 & Hs2).
  split; [congruence |]. split; [congruence |].
  exists (evs1 ++ evs2). split.
  - rewrite Ht2, Ht1. by rewrite app_assoc.
  - apply Forall_app. split; [done |]. by rewrite <- He1, <- Hh1.
Qed.

#[export] Instance same_stamp_frame : Frame same_stamp.
Proof.
  split.
  - split; [intros k; by apply same_stamp_quiet | exact same_stamp_trans].
  - intros k w. by apply same_stamp_quiet.
  - intros k ns. by apply same_stamp_quiet.
  - intros k r a w. split; [done |]. split; [done |].
    exists [stamp k r a w]. split; [done |]. by constructor.
  - intros k t. by apply same_stamp_quiet.
  - intros k e. by apply same_stamp_quiet.
Qed.

(** Assignments and headings leave the timing log alone; headings leave the
    environment alone. *)
Lemma log_grows_setenv name value : keeps log_grows (setenv name value).
Proof. intros k. unfold log_grows. reflexivity. Qed.

Lemma log_grows_markdown h : keeps log_grows (markdown h).
Proof. intros k. unfold log_grows. reflexivity. Qed.

Lemma same_environ_markdown h : keeps same_environ (markdown h).
Proof. intros k. by apply same_environ_quiet. Qed.

End Frames.

Create HintDb frame.
#[export] Hint Resolve keeps_ret keeps_bind keeps_call keeps_shell
  keeps_lookup_name keeps_assign keeps_del keeps_drop_reference keeps_timed
  log_grows_setenv log_grows_markdown same_environ_markdown log_grows_frame
  same_environ_frame same_stamp_frame : frame.

(** Every cell of the notebook, unfolded to the steps of the monad it is
    made of. *)
Ltac unfold_cells :=
  unfold measure, cell_imports, cell_versions, cell_validate,
    cell_download_open, cell_nbytes, cell_mean, cell_del, cell_open,
    cell_open_mean_again, cell_cluster, cell_open_chunked, cell_mean_ave,
    cell_visualize_graph, cell_compute, cell_hvplot.

Section FramedCells.
Context {L : Library} (R : relation Kernel) `{!Frame R}.

Lemma keeps_measure (m : AccessMode) : keeps R (measure m).
Proof. destruct m; unfold_cells; auto 30 with frame. Qed.

Lemma keeps_cell_hvplot : keeps R cell_hvplot.
Proof. unfold_cells. auto 30 with frame. Qed.

Lemma keeps_title_cells :
  keeps R (bind cell_imports (fun _ => bind cell_versions (fun _ => cell_validate))).
Proof. unfold_cells. auto 40 with frame. Qed.

End FramedCells.

(** * Settings *)

Lemma lookup_apply_options opts (e : gmap string string) name :
  apply_options opts e !! name =
  match assigned opts name with
  | Some v => Some v
  | None => e !! name
  end.
Proof.
  revert e. induction opts as [| [n v] rest IH]; intros e; [done |].
  unfold apply_options in *. simpl. rewrite IH.
  destruct (assigned rest name) as [v' |]; [done |].
  destruct (String.eqb_spec n name) as [-> | Hne].
  - by rewrite lookup_insert_eq.
  - by rewrite lookup_insert_ne.
Qed.

Lemma apply_options_idempotent opts (e : gmap string string) :
  apply_options opts (apply_options opts e) = apply_options opts e.
Proof.
  apply map_eq. intros name. rewrite !lookup_apply_options.
  by destruct (assigned opts name).
Qed.

Section Configure.
Context {L : Library}.

Lemma cell_gdal_env_eq (k : Kernel) :
  cell_gdal_env k =
  (Return tt, set_environ (apply_options gdal_options (environ k)) k).
Proof. reflexivity. Qed.

Lemma configure_environ (m : AccessMode) (k : Kernel) :
  environ (configure m k).2 = apply_options (options_of m) (environ k).
Proof. by destruct m. Qed.

Lemma configure_returns (m : AccessMode) (k : Kernel) :
  (configure m k).1 = Return tt.
Proof. by destruct m. Qed.

Lemma configure_quiet (m : AccessMode) (k : Kernel) :
  trace (configure m k).2 = trace k /\ timings (configure m k).2 = timings k /\
  world (configure m k).2 = world k /\ heading (configure m k).2 = heading k.
Proof. by destruct m. Qed.



(** A section's calls carry its heading and its settings. *)
Lemma run_stamped (m : AccessMode) (k : Kernel) :
  environ (run m k).2 = apply_options (options_of m) (environ k) /\
  exists evs, trace (run m k).2 = trace k ++ evs /\
    Forall (fun ev => ev_environ ev = apply_options (options_of m) (environ k)
                      /\ ev_heading ev = heading_of m) evs.
Proof.
  unfold run, bind, markdown.
  pose proof (configure_environ m (set_heading (heading_of m) k)) as He.
  pose proof (configure_returns m (set_heading (heading_of m) k)) as Hr.
  destruct (configure_quiet m (set_heading (heading_of m) k))
    as (Ht & _ & _ & Hh).
  destruct (configure m (set_heading (heading_of m) k)) as [o k1].
  simpl in *. subst o.
  destruct (keeps_measure same_stamp m k1) as (He' & _ & evs & Ht' & Hs).
  split; [congruence |].
  exists evs. split; [congruence |].
  by rewrite <- He, <- Hh.
Qed.

End Configure.

(** * Running a section call by call *)

Lemma drop_length_self {A} (l : list A) : drop (length l) l = [].
Proof. by rewrite drop_all. Qed.

Lemma drop_app_length_add {A} (l a b : list A) :
  drop (length (l ++ a)) (l ++ b) = drop (length a) b.
Proof. rewrite length_app. apply drop_app_add'. done. Qed.


Lemma sublistb_sound {A} `{EqDecision A} (l1 l2 : list A) :
  sublistb l1 l2 = true -> l1 `sublist_of` l2.
Proof.
  revert l1. induction l2 as [| y rest2 IH]; intros [| x rest1]; simpl;
    try done; try (intros _; apply sublist_nil_l).
  intros [[Hxy Hrest]%andb_true_iff | Hskip]%orb_true_iff.
  - apply bool_decide_eq_true in Hxy as ->. by apply sublist_skip, IH.
  - by apply sublist_cons, IH.
Qed.

Ltac sublist_found := apply sublistb_sound; vm_compute; reflexivity.

Section Inversion.
Context {L : Library}.

(** A sequence has run its first part and, if that returned, its second. *)
Lemma bind_inv {A B} (c : M A) (f : A -> M B) (k : Kernel) r :
  bind c f k = r ->
  (exists a k1, c k = (Return a, k1) /\ f a k1 = r) \/
  (exists e k1, c k = (Raise e, k1) /\ r = (Raise e, k1)).
Proof. unfold bind. destruct (c k) as [[a|e] k1]; intros <-; eauto. Qed.

Lemma configure_eq (m : AccessMode) (k : Kernel) :
  configure m k =
  (Return tt, set_environ (apply_options (options_of m) (environ k)) k).
Proof. by destruct m, k. Qed.

End Inversion.

(** The fields of a kernel that a step has changed, read back. *)
Ltac fields_in H :=
  cbv [set_environ set_names set_world set_heading log_event log_timing
       log_traceback stamp] in H;
  cbn [environ names world heading trace timings tracebacks fst snd] in H.

(** The log after one more event. *)
Ltac logged_in H :=
  fields_in H; try rewrite <- app_assoc in H; cbn [app] in H.

(** The calls of a timed cell. *)
Ltac covered_in H :=
  fields_in H;
  first [ rewrite drop_app_length_add in H
        | rewrite drop_app_length in H
        | rewrite drop_length_self in H
        | idtac ];
  cbn [length drop] in H.

Ltac settle H :=
  first [ discriminate H
        | injection H; clear H; intros; subst ].

(** A name looked up in the names bound and deleted so far. *)
Ltac names_in H :=
  repeat lazymatch type of H with
  | context [(<[?i:=_]> _) !! ?i] => rewrite lookup_insert_eq in H
  | context [(delete ?i _) !! ?i] => rewrite lookup_delete_eq in H
  | context [(<[_:=_]> _) !! _] => rewrite lookup_insert_ne in H by done
  | context [(delete _ _) !! _] => rewrite lookup_delete_ne in H by done
  end.

(** What is known of the names of the starting kernel. *)
Ltac known_in H :=
  repeat match goal with
  | Hk : ?ns !! ?n = _ |- _ =>
      lazymatch type of H with
      | context [ns !! n] => rewrite Hk in H
      end
  end.

Ltac head_of t :=
  lazymatch t with
  | ?f _ => head_of f
  | _ => t
  end.

(** From [H : c k = (outcome, k')], every way [c] can have run: the replies
    of its calls and the names it found bound, with [outcome] and [k']
    written out. *)
Ltac run_in H :=
  lazymatch type of H with
  | bind _ _ _ = _ =>
      let H1 := fresh "Hrun" in
      let H2 := fresh "Hrun" in
      apply bind_inv in H as [(? & ? & H1 & H2) | (? & ? & H1 & H2)];
      [ run_in H1; run_in H2 | run_in H1; settle H2 ]
  | ret _ _ = _ => unfold ret in H; settle H
  | call _ _ = _ =>
      unfold call in H; fields_in H;
      lazymatch type of H with
      | context [@respond _ ?req ?env ?wld] =>
          let Hc := fresh "Hcall" in
          destruct (respond req env wld) as [[?exn|?obj] ?after] eqn:Hc;
          logged_in H; settle H
      end
  | shell _ _ = _ =>
      unfold shell in H; fields_in H;
      lazymatch type of H with
      | context [@system _ ?cmd ?env ?wld] =>
          let Hc := fresh "Hcall" in
          destruct (system cmd env wld) as [?status ?after] eqn:Hc;
          logged_in H; settle H
      end
  | lookup_name _ _ = _ =>
      unfold lookup_name in H; fields_in H; names_in H; known_in H;
      lazymatch type of H with
      | match ?ns !! ?n with _ => _ end = _ =>
          let Hn := fresh "Hname" in
          destruct (ns !! n) as [?bound|] eqn:Hn; settle H
      | _ => settle H
      end
  | del _ _ = _ =>
      unfold del in H; fields_in H; names_in H; known_in H;
      lazymatch type of H with
      | match ?ns !! ?n with _ => _ end = _ =>
          let Hn := fresh "Hname" in
          destruct (ns !! n) as [?bound|] eqn:Hn; fields_in H; settle H
      | _ => fields_in H; settle H
      end
  | assign _ _ _ = _ =>
      unfold assign in H; fields_in H; names_in H; known_in H;
      cbn [release] in H; settle H
  | drop_reference _ _ = _ => unfold drop_reference in H; fields_in H; settle H
  | markdown _ _ = _ => unfold markdown in H; fields_in H; settle H
  | setenv _ _ _ = _ => unfold setenv in H; fields_in H; settle H
  | configure ?m ?k = _ => rewrite (configure_eq m k) in H; fields_in H; settle H
  | timed ?body ?k = _ =>
      let Hb := fresh "Hbody" in
      unfold timed in H;
      destruct (body k) as [[?|?] ?] eqn:Hb;
      run_in Hb; covered_in H; try rewrite <- app_assoc in H; cbn [app] in H;
      settle H
  | ?c _ = _ =>
      let h := head_of c in unfold h in H; cbv beta iota in H; run_in H
  end.

Ltac tidy_logs :=
  cbn [fst snd environ names world heading trace timings tracebacks];
  rewrite ?drop_length_self, ?drop_app_length.

(** All the ways a computation can run from [k]. *)
Ltac walk c k :=
  let out := fresh "out" in
  let k' := fresh "k'" in
  let H := fresh "Hrun" in
  destruct (c k) as [out k'] eqn:H; run_in H; tidy_logs.

(** All the ways the section of the goal can run. *)
Ltac walk_run :=
  lazymatch goal with
  | |- context [@run ?lib ?m ?k] => walk (@run lib m) k
  end.

(** * Which environment a call sees *)

Section Governed.
Context {L : Library} (e0 : gmap string string).

Lemma leads_bind {A B} before middle after (c : M A) (f : A -> M B) :
  leads e0 before middle c -> (forall a, leads e0 middle after (f a)) ->
  leads e0 before after (bind c f).
Proof.
  intros Hc Hf k Hk. unfold bind.
  destruct (Hc k Hk) as (He1 & evs1 & Ht1 & Hg1).
  destruct (c k) as [[a|e] k1]; simpl in *.
  - destruct (Hf a k1 (He1 a eq_refl)) as (He2 & evs2 & Ht2 & Hg2).
    split; [done |]. exists (evs1 ++ evs2).
    split; [by rewrite Ht2, Ht1, app_assoc | by apply Forall_app].
  - split; [done |]. by exists evs1.
Qed.

(** Calls stamped with the heading and environment of the moment are
    governed when that environment is the section's. *)
Lemma leads_stamped {A} (c : M A) h before :
  environ_under h e0 = before ->
  keeps same_stamp c ->
  forall k, heading k = h -> environ k = before ->
    environ (c k).2 = before /\
    exists evs, trace (c k).2 = trace k ++ evs /\ Forall (governed e0) evs.
Proof.
  intros Hu Hc k Hh He.
  destruct (Hc k) as (He' & _ & evs & Ht & Hs).
  split; [congruence |]. exists evs. split; [done |].
  eapply Forall_impl; [exact Hs |].
  intros ev [Hev1 Hev2]. unfold governed. congruence.
Qed.

Lemma leads_title_section : leads e0 e0 e0 title_section.
Proof.
  intros k He. unfold title_section. unfold bind at 1. unfold markdown.
  destruct (leads_stamped
              (bind cell_imports
                 (fun _ => bind cell_versions (fun _ => cell_validate)))
              Title e0 eq_refl (keeps_title_cells same_stamp)
              (set_heading Title k) eq_refl He) as (He' & Hg).
  split; [done | exact Hg].
Qed.

Lemma leads_run (m : AccessMode) before :
  environ_under (heading_of m) e0 = apply_options (options_of m) before ->
  leads e0 before (apply_options (options_of m) before) (run m).
Proof.
  intros Hu k He.
  destruct (run_stamped m k) as (He' & evs & Ht & Hs).
  split; [intros; congruence |]. exists evs. split; [done |].
  eapply Forall_impl; [exact Hs |].
  intros ev [Hev1 Hev2]. unfold governed. congruence.
Qed.

Lemma leads_visualize :
  leads e0 (apply_options gdal_options e0) (apply_options gdal_options e0)
    visualize.
Proof.
  intros k He. unfold visualize. unfold bind at 1. unfold markdown.
  destruct (leads_stamped cell_hvplot VisualizeHeading
              (apply_options gdal_options e0) eq_refl
              (keeps_cell_hvplot same_stamp)
              (set_heading VisualizeHeading k) eq_refl He) as (He' & Hg).
  split; [done | exact Hg].
Qed.

Lemma leads_notebook :
  leads e0 e0 (apply_options gdal_options e0) notebook.
Proof.
  unfold notebook.
  apply (leads_bind e0 e0); [apply leads_title_section | intros _].
  apply (leads_bind e0 e0); [by apply (leads_run LocalDownload) | intros _].
  apply (leads_bind e0 e0); [by apply (leads_run RemoteDefault) | intros _].
  apply (leads_bind e0 (apply_options gdal_options e0));
    [by apply (leads_run RemoteTuned) | intros _].
  apply (leads_bind (apply_options gdal_options e0)
                    (apply_options gdal_options e0));
    [by apply (leads_run RemoteChunked) | intros _].
  apply leads_visualize.
Qed.

End Governed.

(** * What becomes of an exception *)

Section Accounting.
Context {L : Library}.















End Accounting.


Section AccountedCells.
Context {L : Library}.



End AccountedCells.

(** * Samples and tracebacks *)

Section Tallying.
Context {L : Library}.









End Tallying.


Section TalliedCells.
Context {L : Library}.


End TalliedCells.

(** * Where an exception surfaces *)

Section Surfacing.
Context {L : Library}.












End Surfacing.



Section SurfacingCells.
Context {L : Library}.



End SurfacingCells.

(** * The calls and the samples of a run *)

Ltac grown := first [reflexivity | symmetry; apply app_nil_r].

(** From [H : Forall (fun ev => raised ev = None) evs] for the calls of a
    path on which one raised. *)
Ltac one_raised H :=
  repeat lazymatch type of H with
  | Forall _ (_ :: _) =>
      let Hev := fresh "Hev" in
      apply Forall_cons in H as [Hev H]; try discriminate Hev
  end.

Ltac shape_found :=
  eexists _, _; (split; [grown |]); (split; [grown |]);
  (split; [sublist_found |]); (split; [sublist_found |]);
  let Hq := fresh "Hquiet" in
  intros Hq; one_raised Hq;
  (split; [by eexists |]); split; vm_compute; reflexivity.

Section Shapes.
Context {L : Library}.

Lemma sublist_map {A B} (f : A -> B) (l1 l2 : list A) :
  l1 `sublist_of` l2 -> map f l1 `sublist_of` map f l2.
Proof. induction 1; simpl; by constructor. Qed.

Lemma shaped_bind {A B} (c : M A) (f : A -> M B) ops1 ops2 samples1 samples2 :
  shaped c ops1 samples1 -> (forall a, shaped (f a) ops2 samples2) ->
  shaped (bind c f) (ops1 ++ ops2) (samples1 ++ samples2).
Proof.
  intros Hc Hf k. unfold bind.
  destruct (Hc k) as (evs1 & ts1 & Ht1 & Hs1 & Ho1 & Hl1 & H1).
  destruct (c k) as [[a|e] k1]; simpl in *.
  - destruct (Hf a k1) as (evs2 & ts2 & Ht2 & Hs2 & Ho2 & Hl2 & H2).
    exists (evs1 ++ evs2), (ts1 ++ ts2).
    split; [by rewrite Ht2, Ht1, app_assoc |].
    split; [by rewrite Hs2, Hs1, app_assoc |].
    rewrite !map_app.
    split; [by apply sublist_app |]. split; [by apply sublist_app |].
    intros [Hq1 Hq2]%Forall_app.
    destruct (H1 Hq1) as (_ & -> & ->). destruct (H2 Hq2) as (? & -> & ->).
    done.
  - exists evs1, ts1. split; [done |]. split; [done |].
    split; [by apply sublist_inserts_r |].
    split; [by apply sublist_inserts_r |].
    intros Hq. by destruct (H1 Hq) as ([? ?] & _).
Qed.

Lemma shaped_title_section :
  shaped title_section
    [OpImport; OpImport; OpImport; OpImport; OpImport; OpImport; OpImport;
     OpVersionInfo; OpHttpGet; OpJsonStatus] [].
Proof. intros k. walk title_section k; shape_found. Qed.

Lemma shaped_run (m : AccessMode) :
  shaped (run m) (section_ops m) (map (pair (heading_of m)) (samples_of m)).
Proof. intros k. destruct m; walk_run; shape_found. Qed.

Lemma shaped_visualize :
  shaped visualize [OpOpen false; OpSqueeze; OpPlot]
    [(VisualizeHeading, [OpOpen false; OpSqueeze; OpPlot])].
Proof. intros k. walk visualize k; shape_found. Qed.

Lemma shaped_notebook : shaped notebook notebook_ops notebook_samples.
Proof.
  unfold notebook.
  apply (shaped_bind _ _ _ _ [] _ shaped_title_section). intros _.
  apply (shaped_bind _ _ _ _ _ _ (shaped_run LocalDownload)). intros _.
  apply (shaped_bind _ _ _ _ _ _ (shaped_run RemoteDefault)). intros _.
  apply (shaped_bind _ _ _ _ _ _ (shaped_run RemoteTuned)). intros _.
  apply (shaped_bind _ _ _ _ _ _ (shaped_run RemoteChunked)). intros _.
  apply shaped_visualize.
Qed.

(** The samples of a section by the operations they cover. *)
Lemma run_samples (m : AccessMode) (k : Kernel) :
  timings (run m k).2 = timings k ++ sampled (run m) k /\
  map covers (sampled (run m) k) `sublist_of` samples_of m /\
  (Forall (fun ev => raised ev = None) (issued (run m) k) ->
     map covers (sampled (run m) k) = samples_of m).
Proof.
  destruct (shaped_run m k) as (evs & ts & Ht & Hs & _ & Hl & Hq).
  unfold sampled, issued. rewrite Ht, Hs, !drop_app_length.
  assert (forall ts' : list Timing, map covers ts' = map snd (map label ts'))
    as Hcov by (intros ts'; by rewrite map_map).
  assert (map snd (map (pair (heading_of m)) (samples_of m)) = samples_of m)
    as Hsnd by (rewrite map_map; apply map_id).
  split; [done |]. split.
  - rewrite Hcov, <- Hsnd. by apply sublist_map.
  - intros Hquiet. destruct (Hq Hquiet) as (_ & _ & Heq).
    by rewrite Hcov, Heq.
Qed.

End Shapes.

(** * Wall time *)

(** What the clock did during the calls made and across the references
    dropped, from what the clock does during any call ([Hr], [Hs]) and
    across any reference dropped ([Hu], [Hl]). *)
Ltac clock_facts Hr Hs Hu Hl :=
  repeat match goal with
  | H : @respond _ ?req ?env ?wld = (_, _) |- _ =>
      let F := fresh "Hclock" in
      pose proof (Hr req env wld) as F; rewrite H in F; simpl in F;
      revert H
  | H : @system _ ?cmd ?env ?wld = (_, _) |- _ =>
      let F := fresh "Hclock" in
      pose proof (Hs cmd env wld) as F; rewrite H in F; simpl in F;
      revert H
  end;
  intros;
  repeat match goal with
  | _ : context [@unreference _ ?o ?wld] |- _ =>
      lazymatch goal with
      | _ : wall_clock wld <= wall_clock (unreference o wld) |- _ => fail
      | _ => pose proof (Hu o wld)
      end
  | |- context [@unreference _ ?o ?wld] =>
      lazymatch goal with
      | _ : wall_clock wld <= wall_clock (unreference o wld) |- _ => fail
      | _ => pose proof (Hu o wld)
      end
  | _ : context [release ?x ?wld] |- _ =>
      lazymatch goal with
      | _ : wall_clock wld <= wall_clock (release x wld) |- _ => fail
      | _ => pose proof (Hl x wld)
      end
  | |- context [release ?x ?wld] =>
      lazymatch goal with
      | _ : wall_clock wld <= wall_clock (release x wld) |- _ => fail
      | _ => pose proof (Hl x wld)
      end
  end.

Section Walls.
Context {L : Library}.

Lemma release_clock :
  (forall o w, wall_clock w <= wall_clock (unreference o w)) ->
  forall x w, wall_clock w <= wall_clock (release x w).
Proof. intros Hu [o |] w; simpl; [apply Hu | lia]. Qed.

(** The samples of a section, walked once: each carries the section's
    heading and covers calls made under the section's settings; each wall
    time is positive when the clock ticks with every call; together they
    fit in the time the section took when the clock never goes back. *)
Lemma run_timings (m : AccessMode) (k : Kernel) :
  Forall (fun t =>
            t_heading t = heading_of m /\
            (0 < length (t_calls t))%nat /\
            Forall (fun ev =>
                      ev_heading ev = heading_of m /\
                      ev_environ ev = apply_options (options_of m) (environ k))
                   (t_calls t))
         (sampled (run m) k) /\
  (ticking -> Forall (fun t => 0 < t_wall t) (sampled (run m) k)) /\
  (monotone_clock ->
     total_wall (sampled (run m) k) <=
       wall_clock (world (run m k).2) - wall_clock (world k)).
Proof.
  unfold sampled.
  destruct m; walk_run; (split; [solve [repeat constructor] |]);
    ((split; intros (Hr & Hs & Hu); pose proof (release_clock Hu) as Hl;
      clock_facts Hr Hs Hu Hl);
     [ repeat constructor; cbn [t_wall]; lia
     | cbn [total_wall foldr t_wall]; lia ]).
Qed.

(** In a section started with neither [da] nor [ave] bound, a cell that
    reduces has recorded a sample only after a cell that opens has. *)
Lemma run_open_first (m : AccessMode) (k : Kernel) :
  names k !! "da" = None -> names k !! "ave" = None ->
  open_first false (map covers (sampled (run m) k)) = true.
Proof.
  intros Hda Have. unfold sampled.
  destruct m; walk_run; try congruence; vm_compute; reflexivity.
Qed.

End Walls.

(** * The objects of a run *)

Section Sources.
Context {L : Library}.




End Sources.

(** * The references dropped *)

Section Audit.
Context {L : Library}.

Lemma audited_respond r e (w w' : @World (audited L)) reply :
  @respond (audited L) r e w = (reply, w') -> w'.2 = w.2.
Proof.
  simpl. destruct (@respond L r e w.1) as [a w1]. by intros [= _ <-].
Qed.

Lemma audited_system c e (w w' : @World (audited L)) status :
  @system (audited L) c e w = (status, w') -> w'.2 = w.2.
Proof.
  simpl. destruct (@system L c e w.1) as [s w1]. by intros [= _ <-].
Qed.

End Audit.

(** The references dropped along a path. *)
Ltac audit_facts :=
  repeat match goal with
  | H : @respond (audited _) _ _ _ = (_, _) |- _ =>
      apply audited_respond in H
  | H : @system (audited _) _ _ _ = (_, _) |- _ =>
      apply audited_system in H
  end.

Section Dropped.
Context {L : Library}.

Lemma run_dropped (m : AccessMode) (k : @Kernel (audited L)) :
  m <> RemoteChunked ->
  match (run m k).1 with
  | Return _ =>
      dropped (run m k).2 =
        dropped k ++ option_list (names k !! "da") ++ opened (issued (run m) k) /\
      names (run m k).2 !! "da" = None
  | Raise _ =>
      exists ds rest,
        dropped (run m k).2 = dropped k ++ ds /\
        option_list (names k !! "da") ++ opened (issued (run m) k) = ds ++ rest
  end.
Proof.
  intros Hm. unfold issued, dropped.
  destruct (names k !! "da") as [old |] eqn:Hda;
    (destruct m; try done; walk_run); audit_facts; cbn [snd] in *;
    repeat match goal with
    | H : ?w.2 = _ |- context [?w.2] => rewrite H
    end;
    simpl; rewrite <- ?app_assoc;
    first [ split; [reflexivity | apply lookup_delete_eq]
          | eexists _, _; split; [grown | reflexivity] ].
Qed.

End Dropped.

(** * The names a section leaves *)

(** A lookup in the names bound and deleted along a path. *)
Ltac names_found :=
  repeat first
    [ rewrite lookup_delete_eq
    | rewrite lookup_insert_eq
    | rewrite lookup_delete_ne by done
    | rewrite lookup_insert_ne by done ];
  try done.

Section Unbound.
Context {L : Library}.

Lemma title_names (k k1 : Kernel) out :
  title_section k = (out, k1) ->
  names k1 !! "da" = names k !! "da" /\ names k1 !! "ave" = names k !! "ave".
Proof.
  intros Hrun. run_in Hrun; cbn [names]; split; names_found.
Qed.

(** A download, default or tuned section that returns has deleted [da] and
    has not touched [ave]. *)
Lemma run_unbinds (m : AccessMode) (k k1 : Kernel) :
  m <> RemoteChunked -> run m k = (Return tt, k1) ->
  names k1 !! "da" = None /\ names k1 !! "ave" = names k !! "ave".
Proof.
  intros Hm Hrun.
  destruct m; try done; run_in Hrun; cbn [names]; split; names_found.
Qed.

Lemma notebook_around (m : AccessMode) (k : Kernel) :
  notebook k = bind (reaches m) (fun _ => bind (run m) (fun _ => follows m)) k.
Proof.
  unfold notebook, reaches, follows, bind.
  destruct m;
    destruct (title_section k) as [[? | ?] k1]; try reflexivity;
    destruct (run LocalDownload k1) as [[? | ?] k2]; try reflexivity;
    destruct (run RemoteDefault k2) as [[? | ?] k3]; try reflexivity;
    destruct (run RemoteTuned k3) as [[? | ?] k4]; reflexivity.
Qed.

(** Run All reaches the download section with [da] as the kernel had it,
    and every later section with [da] deleted; [ave] is as the kernel had
    it in every section. *)
Lemma reaches_names (m : AccessMode) (k k1 : Kernel) :
  reaches m k = (Return tt, k1) ->
  names k1 !! "ave" = names k !! "ave" /\
  names k1 !! "da" =
    match m with
    | LocalDownload => names k !! "da"
    | RemoteDefault | RemoteTuned | RemoteChunked => None
    end.
Proof.
  intros Hrun. destruct m; unfold reaches in Hrun;
    repeat lazymatch type of Hrun with
           | bind _ _ _ = _ =>
               let Hsec := fresh "Hsec" in
               apply bind_inv in Hrun
                 as [([] & ? & Hsec & Hrun) | (? & ? & _ & [=])]
           end;
    repeat match goal with
    | H : title_section _ = _ |- _ => apply title_names in H as [? ?]
    | H : run _ _ = _ |- _ => apply run_unbinds in H as [? ?]; [| done]
    end;
    split; congruence.
Qed.

End Unbound.

(** * Deferred arrays *)



Section Deferred.
Context {L : Library} (pixels_read : World -> Z) (deferred : Obj -> Prop).



End Deferred.

(** * The notebook's properties *)

Section Notebook.
Context {L : Library}.

(** C2 (as amended): every section records its timings at the end of the
    log; when the clock moves forward with every call, each recorded wall
    time is positive; the samples are some of those of the section's timed
    cells, in the order of the cells; when no call raises they are those of
    all the timed cells, two for the download and the tuned sections and
    three for the default and the chunked ones; in a section started with
    neither [da] nor [ave] bound, no compute sample stands before an open
    sample. *)
Theorem run_samples_ordered_positive (Hclock : ticking) (m : AccessMode)
    (k : Kernel) :
  let ts := sampled (run m) k in
  timings (run m k).2 = timings k ++ ts /\
  Forall (fun t => 0 < t_wall t) ts /\
  map covers ts `sublist_of` samples_of m /\
  (Forall (fun ev => raised ev = None) (issued (run m) k) ->
     map covers ts = samples_of m /\
     length ts =
       match m with
       | LocalDownload | RemoteTuned => 2%nat
       | RemoteDefault | RemoteChunked => 3%nat
       end) /\
  (names k !! "da" = None -> names k !! "ave" = None ->
     open_first false (map covers ts) = true).
Proof.
  cbv zeta. destruct (run_samples m k) as (Hgrow & Hsub & Hall).
  destruct (run_timings m k) as (_ & Hwalls & _).
  split; [done |]. split; [by apply Hwalls |]. split; [done |]. split.
  - intros Hquiet. specialize (Hall Hquiet). split; [done |].
    rewrite <- (length_map covers), Hall. by destruct m.
  - by apply run_open_first.
Qed.

(** C3 (as amended): the environment a mode's configuration leaves is a
    function of the mode and of the environment before; configuring a
    second time changes nothing; only the tuned mode sets anything (five
    names), the other three set nothing. *)
Theorem configure_deterministic_idempotent (m : AccessMode) (k : Kernel) :
  let once := (configure m k).2 in
  let twice := (configure m once).2 in
  environ once = apply_options (options_of m) (environ k) /\
  environ twice = environ once /\
  size (apply_options (options_of m) ∅) =
    match m with
    | RemoteTuned => 5%nat
    | LocalDownload | RemoteDefault | RemoteChunked => 0%nat
    end.
Proof.
  cbv zeta. rewrite !configure_environ. split; [done |].
  split; [apply apply_options_idempotent |].
  destruct m; by vm_compute.
Qed.



End Notebook.

Section Persistence.
Context {L : Library}.




(** C9: after the tuned configuration the three cache settings hold the same
    text, 200000000; read as a number of bytes it is larger than the
    uncompressed raster, which is 120 MB. *)
Theorem cache_sizes_exceed_raster (k : Kernel) :
  let e := environ (configure RemoteTuned k).2 in
  Forall (fun name => e !! name = Some "200000000")
    ["GDAL_MAX_RAW_BLOCK_CACHE_SIZE"; "GDAL_SWATH_SIZE"; "VSI_CURL_CACHE_SIZE"] /\
  decimal "200000000" = Some 200000000 /\
  raster_nbytes / MB = 120 /\
  raster_nbytes < 200000000.
Proof.
  cbv zeta. rewrite configure_environ. split.
  - repeat constructor; by rewrite lookup_apply_options.
  - by vm_compute.
Qed.

Lemma notebook_split (k : Kernel) :
  notebook k =
  bind before_gdal_env (fun _ => bind cell_gdal_env (fun _ => after_gdal_env)) k.
Proof.
  unfold notebook, before_gdal_env, after_gdal_env, bind.
  destruct (title_section k) as [[? | ?] k1]; [| done].
  destruct (run LocalDownload k1) as [[? | ?] k2]; [| done].
  destruct (run RemoteDefault k2) as [[? | ?] k3]; [| done].
  reflexivity.
Qed.

Lemma same_environ_run (m : AccessMode) (k : Kernel) e :
  environ k = apply_options gdal_options e -> same_environ k (run m k).2.
Proof.
  intros He. destruct (run_stamped m k) as (He' & evs & Ht & Hs).
  assert (apply_options (options_of m) (environ k) = environ k) as Hsame.
  { destruct m; try done. rewrite He. apply apply_options_idempotent. }
  rewrite Hsame in *. split; [done |]. exists evs. split; [done |].
  eapply Forall_impl; [exact Hs |]. by intros ev [? _].
Qed.

Lemma same_environ_after_runs (ms : list AccessMode) (k : Kernel) e :
  environ k = apply_options gdal_options e -> same_environ k (after_runs ms k).
Proof.
  revert k. induction ms as [| m ms IH]; intros k He; [reflexivity |].
  simpl. pose proof (same_environ_run m k e He) as Hm.
  transitivity (run m k).2; [done |].
  apply IH. destruct Hm as [-> _]. done.
Qed.

Lemma same_environ_after_gdal_env (k : Kernel) e :
  environ k = apply_options gdal_options e ->
  same_environ k (after_gdal_env k).2.
Proof.
  intros He. unfold after_gdal_env, bind.
  pose proof (keeps_measure same_environ RemoteTuned k) as H1.
  destruct (measure RemoteTuned k) as [[? | ?] k1]; [| done].
  simpl in H1. transitivity k1; [done |].
  assert (environ k1 = apply_options gdal_options e) as He1
    by (destruct H1 as [-> _]; done).
  pose proof (same_environ_run RemoteChunked k1 e He1) as H2.
  destruct (run RemoteChunked k1) as [[? | ?] k2]; [| done].
  simpl in H2. transitivity k2; [done |].
  unfold visualize. apply (keeps_bind same_environ); auto with frame.
  intros _. apply (keeps_cell_hvplot same_environ).
Qed.

(** C10: the notebook is the cells before the assignment cell, that cell,
    and the cells after it.  After the assignment cell, the cells that
    follow in the notebook, and any further sections run in any order,
    leave the environment as the assignment cell left it, whether they
    return or raise, and every call they make sees it. *)
Theorem tuned_environ_persists (k : Kernel) (ms : list AccessMode) :
  let k1 := (cell_gdal_env k).2 in
  notebook k =
    bind before_gdal_env (fun _ => bind cell_gdal_env (fun _ => after_gdal_env)) k /\
  environ k1 = apply_options gdal_options (environ k) /\
  same_environ k1 (after_gdal_env k1).2 /\
  same_environ k1 (after_runs ms k1).
Proof.
  cbv zeta. split; [apply notebook_split |]. split; [done |].
  split; [by eapply same_environ_after_gdal_env |
          by eapply same_environ_after_runs].
Qed.

End Persistence.

(** * Further properties of the cells *)

Section Cells.
Context {L : Library}.


(** X3: when the clock never goes back, the wall times of the samples of a
    section add up to no more than the time the section took: the timed
    cells do not overlap. *)
Theorem samples_fit_in_elapsed_time (Hclock : monotone_clock)
    (m : AccessMode) (k : Kernel) :
  total_wall (sampled (run m) k) <=
    wall_clock (world (run m k).2) - wall_clock (world k).
Proof. destruct (run_timings m k) as (_ & _ & Hfit). by apply Hfit. Qed.

(** X6: every sample of a section carries the section's heading and covers
    at least one call, and every call it covers was made under that heading
    and under the environment the section's settings give. *)
Theorem samples_carry_section_and_settings (m : AccessMode) (k : Kernel) :
  Forall (fun t =>
            t_heading t = heading_of m /\
            (0 < length (t_calls t))%nat /\
            Forall (fun ev =>
                      ev_heading ev = heading_of m /\
                      ev_environ ev = apply_options (options_of m) (environ k))
                   (t_calls t))
         (sampled (run m) k).
Proof. by destruct (run_timings m k) as (Hstamped & _). Qed.

(** X7: Run All makes at most thirty calls, each of its call sites at most
    once and in the notebook's order, the seven imports first and the plot
    last, and records at most eleven samples, each under its section and in
    the order of the timed cells; when no call raises, Run All returns, and
    has made all thirty calls and recorded all eleven samples. *)
Theorem run_all_calls_and_samples (k : Kernel) :
  trace (notebook k).2 = trace k ++ issued notebook k /\
  timings (notebook k).2 = timings k ++ sampled notebook k /\
  map (fun ev => op_of (ev_request ev)) (issued notebook k)
    `sublist_of` notebook_ops /\
  map label (sampled notebook k) `sublist_of` notebook_samples /\
  length notebook_ops = 30%nat /\
  length notebook_samples = 11%nat /\
  (Forall (fun ev => raised ev = None) (issued notebook k) ->
     (notebook k).1 = Return tt /\
     map (fun ev => op_of (ev_request ev)) (issued notebook k) = notebook_ops /\
     map label (sampled notebook k) = notebook_samples).
Proof.
  destruct (shaped_notebook k) as (evs & ts & Ht & Hs & Ho & Hl & Hq).
  unfold issued, sampled. rewrite Ht, Hs, !drop_app_length.
  repeat (split; [done |]). intros Hquiet.
  destruct (Hq Hquiet) as ([[] Hr] & ? & ?). done.
Qed.

(** X8: when Run All has returned, a second Run All in the same kernel makes
    every one of its calls, those of the download and default sections
    included, under the tuned environment the first one left, and leaves
    that environment when it returns. *)
Theorem second_run_all_is_tuned_throughout (k : Kernel) (a : unit) :
  (notebook k).1 = Return a ->
  let k1 := (notebook k).2 in
  environ k1 = apply_options gdal_options (environ k) /\
  Forall (fun ev => ev_environ ev = environ k1) (issued notebook k1) /\
  (forall b, (notebook k1).1 = Return b -> environ (notebook k1).2 = environ k1).
Proof.
  intros Hret. cbv zeta.
  destruct (leads_notebook (environ k) k eq_refl) as (He & _).
  specialize (He a Hret).
  destruct (leads_notebook (environ (notebook k).2) (notebook k).2 eq_refl)
    as (He2 & evs & Ht & Hg).
  assert (apply_options gdal_options (environ (notebook k).2) =
          environ (notebook k).2) as Hsame
    by (rewrite He; apply apply_options_idempotent).
  split; [done |]. split.
  - unfold issued. rewrite Ht, drop_app_length.
    eapply Forall_impl; [exact Hg |]. intros ev Hev.
    unfold governed, environ_under in Hev. rewrite Hsame in Hev.
    by destruct (tuned_in_force (ev_heading ev)).
  - intros b Hb. rewrite (He2 b Hb). exact Hsame.
Qed.

(** X9: Run All is the cells before a section, the section, and the cells
    after it.  It reaches the download section with [da] as the kernel had
    it and every later section with [da] deleted, and it reaches every
    section with [ave] as the kernel had it. *)
Theorem sections_start_with_da_deleted (m : AccessMode) (k k1 : Kernel) :
  reaches m k = (Return tt, k1) ->
  notebook k = bind (reaches m) (fun _ => bind (run m) (fun _ => follows m)) k /\
  names k1 !! "ave" = names k !! "ave" /\
  names k1 !! "da" =
    match m with
    | LocalDownload => names k !! "da"
    | RemoteDefault | RemoteTuned | RemoteChunked => None
    end.
Proof.
  intros Hreach. split; [apply notebook_around | by apply reaches_names].
Qed.

End Cells.

Section Audited.
Context {L : Library}.

(** X2: against any library, with the dropped references listed: a
    download, default or tuned section that returns has dropped the array
    [da] was bound to when it started, if it was bound, and then the arrays
    its opens returned, in the order it opened them, and leaves [da]
    unbound; one that raises has dropped the first few of these. *)
Theorem sections_drop_the_arrays_they_open (k : @Kernel (audited L)) :
  Forall (fun m =>
            match (run m k).1 with
            | Return _ =>
                dropped (run m k).2 =
                  dropped k ++ option_list (names k !! "da") ++
                  opened (issued (run m) k) /\
                names (run m k).2 !! "da" = None
            | Raise _ =>
                exists ds rest,
                  dropped (run m k).2 = dropped k ++ ds /\
                  option_list (names k !! "da") ++ opened (issued (run m) k) =
                    ds ++ rest
            end)
         [LocalDownload; RemoteDefault; RemoteTuned].
Proof. repeat constructor; by apply run_dropped. Qed.

End Audited.

(** * The assignment cell *)

Lemma assigned_Some_elem (opts : list (string * string)) name value :
  NoDup opts.*1 -> assigned opts name = Some value <-> (name, value) ∈ opts.
Proof.
  revert value. induction opts as [| [n v] rest IH]; intros value Hnd.
  - simpl. split; [done | by intros ?%elem_of_nil].
  - rewrite fmap_cons in Hnd. apply NoDup_cons in Hnd as [Hn Hnd].
    simpl in Hn. assert (IH' := fun value => IH value Hnd). clear IH.
    simpl. rewrite elem_of_cons.
    destruct (assigned rest name) as [v' |] eqn:Hrest.
    + pose proof (proj1 (IH' v') eq_refl) as Hin'. split.
      * intros [= ->]. by right.
      * intros [[= -> ->] | Hin].
        -- exfalso. apply Hn. apply list_elem_of_fmap. by exists (n, v').
        -- apply IH' in Hin. congruence.
    + assert (forall value', (name, value') ∉ rest) as Hnot
        by (intros value' Hin; by apply IH' in Hin).
      destruct (String.eqb_spec n name) as [-> | Hne].
      * split.
        -- intros [= ->]. by left.
        -- intros [[= ->] | Hin]; [done | by apply Hnot in Hin].
      * split; [done |].
        intros [[= -> ->] | Hin]; [done | by apply Hnot in Hin].
Qed.

Lemma apply_options_Permutation (opts opts' : list (string * string))
    (e : gmap string string) :
  NoDup opts.*1 -> opts' ≡ₚ opts -> apply_options opts' e = apply_options opts e.
Proof.
  intros Hnd Hp. apply map_eq. intros name. rewrite !lookup_apply_options.
  assert (assigned opts' name = assigned opts name) as ->; [| done].
  apply option_eq. intros value.
  rewrite !assigned_Some_elem; [by rewrite Hp | done | by rewrite Hp].
Qed.

Section Assignments.
Context {L : Library}.

(** X4: the five assignments of the environment cell are to five different
    names, so that made in any other order they leave the same
    environment. *)
Theorem gdal_assignments_commute (opts : list (string * string)) (k : Kernel) :
  opts ≡ₚ gdal_options ->
  apply_options opts (environ k) = environ (cell_gdal_env k).2.
Proof.
  intros Hp.
  change (environ (cell_gdal_env k).2)
    with (apply_options gdal_options (environ k)).
  apply apply_options_Permutation; [| done].
  apply (bool_decide_unpack _). by vm_compute.
Qed.

(** X5: the environment cell overrides: two kernels whose environments agree
    on every name other than the five are left with the same environment,
    whatever the five names held before. *)
Theorem gdal_env_overrides_earlier_values (k1 k2 : Kernel) :
  (forall name, assigned gdal_options name = None ->
                environ k1 !! name = environ k2 !! name) ->
  environ (cell_gdal_env k1).2 = environ (cell_gdal_env k2).2.
Proof.
  intros Hagree.
  change (environ (cell_gdal_env k1).2)
    with (apply_options gdal_options (environ k1)).
  change (environ (cell_gdal_env k2).2)
    with (apply_options gdal_options (environ k2)).
  apply map_eq. intros name. rewrite !lookup_apply_options.
  destruct (assigned gdal_options name) eqn:Hn; [done | by apply Hagree].
Qed.

End Assignments.

(** * The notebook against the scripted libraries *)



(** C2 (the claim as stated fails): the default section records three
    samples, not two: the open, the mean, and the cached re-run of both. *)
Lemma default_run_records_three_samples :
  map covers (timings (@run online RemoteDefault fresh_kernel).2) =
    [[OpOpen false]; [OpMean]; [OpOpen false; OpMean]] /\
  length (timings (@run online RemoteDefault fresh_kernel).2) = 3%nat.
Proof. by vm_compute. Qed.

(** The scripted library's clock ticks once a call. *)
Lemma online_ticking : @ticking online.
Proof. repeat split; intros; simpl; lia. Defined.

(** C2 (as amended), on the tuned section of the scripted library, whose
    clock ticks once a call. *)
Lemma run_samples_ordered_positive_witness :
  @ticking online /\
  timings (@run online RemoteTuned fresh_kernel).2 =
    timings fresh_kernel ++
    sampled (@run online RemoteTuned) fresh_kernel /\
  Forall (fun t => 0 < t_wall t)
    (sampled (@run online RemoteTuned) fresh_kernel) /\
  map covers (sampled (@run online RemoteTuned) fresh_kernel)
    `sublist_of` samples_of RemoteTuned /\
  (Forall (fun ev => raised ev = None)
          (issued (@run online RemoteTuned) fresh_kernel) ->
     map covers (sampled (@run online RemoteTuned) fresh_kernel) =
       samples_of RemoteTuned /\
     length (sampled (@run online RemoteTuned) fresh_kernel) = 2%nat) /\
  (names fresh_kernel !! "da" = None -> names fresh_kernel !! "ave" = None ->
     open_first false
       (map covers (sampled (@run online RemoteTuned) fresh_kernel)) = true).
Proof.
  split; [exact online_ticking |].
  exact (@run_samples_ordered_positive online online_ticking RemoteTuned
           fresh_kernel).
Defined.

(** C3 (the claim as stated fails): the default mode sets no option; its
    whole section, run from an empty environment, leaves it empty. *)
Lemma default_mode_sets_nothing :
  options_of RemoteDefault = [] /\
  environ (@run online RemoteDefault fresh_kernel).2 = ∅.
Proof. by vm_compute. Qed.




(** * The further properties on the scripted library *)


Lemma online_monotone_clock : @monotone_clock online.
Proof. repeat split; intros; simpl; lia. Defined.

(** X3 on the default section. *)
Lemma samples_fit_in_elapsed_time_witness :
  @monotone_clock online /\
  total_wall (sampled (@run online RemoteDefault) fresh_kernel) <=
    @wall_clock online (world (@run online RemoteDefault fresh_kernel).2) -
    @wall_clock online (world fresh_kernel).
Proof.
  split; [exact online_monotone_clock |].
  exact (@samples_fit_in_elapsed_time online online_monotone_clock
           RemoteDefault fresh_kernel).
Defined.

(** X4 on the assignments made last to first. *)
Lemma gdal_assignments_commute_witness :
  reverse gdal_options ≡ₚ gdal_options /\
  apply_options (reverse gdal_options) (environ fresh_kernel) =
    environ (@cell_gdal_env online fresh_kernel).2.
Proof.
  split; [apply reverse_Permutation |].
  exact (@gdal_assignments_commute online (reverse gdal_options) fresh_kernel
           (reverse_Permutation gdal_options)).
Defined.

Lemma fresh_preset_agree (name : string) :
  assigned gdal_options name = None ->
  environ fresh_kernel !! name = environ preset_kernel !! name.
Proof.
  intros Hn. simpl. rewrite lookup_empty. symmetry.
  apply lookup_singleton_ne. intros <-. by vm_compute in Hn.
Defined.

(** X5 on an empty environment and one with [GDAL_SWATH_SIZE] set. *)
Lemma gdal_env_overrides_earlier_values_witness :
  (forall name, assigned gdal_options name = None ->
                environ fresh_kernel !! name = environ preset_kernel !! name) /\
  environ (@cell_gdal_env online fresh_kernel).2 =
    environ (@cell_gdal_env online preset_kernel).2.
Proof.
  split; [exact fresh_preset_agree |].
  exact (@gdal_env_overrides_earlier_values online fresh_kernel preset_kernel
           fresh_preset_agree).
Defined.

(** X8 on the scripted library, whose Run All returns. *)
Lemma second_run_all_is_tuned_throughout_witness :
  (@notebook online fresh_kernel).1 = Return tt /\
  environ (@notebook online fresh_kernel).2 =
    apply_options gdal_options (environ fresh_kernel) /\
  Forall (fun ev => ev_environ ev = environ (@notebook online fresh_kernel).2)
    (issued (@notebook online) (@notebook online fresh_kernel).2) /\
  (forall b, (@notebook online (@notebook online fresh_kernel).2).1 = Return b ->
     environ (@notebook online (@notebook online fresh_kernel).2).2 =
     environ (@notebook online fresh_kernel).2).
Proof.
  split; [reflexivity |].
  exact (@second_run_all_is_tuned_throughout online fresh_kernel tt eq_refl).
Defined.

(** X9 on the Dask section of Run All from a fresh kernel. *)
Lemma sections_start_with_da_deleted_witness :
  @reaches online RemoteChunked fresh_kernel = (Return tt, dask_start) /\
  @notebook online fresh_kernel =
    bind (reaches RemoteChunked)
      (fun _ => bind (run RemoteChunked) (fun _ => follows RemoteChunked))
      fresh_kernel /\
  names dask_start !! "ave" = names fresh_kernel !! "ave" /\
  names dask_start !! "da" = None.
Proof.
  split; [by vm_compute |].
  exact (@sections_start_with_da_deleted online RemoteChunked fresh_kernel
           dask_start ltac:(by vm_compute)).
Defined.
